(** * Indicator calculator of the Indian stock dashboard (src/app.py)

    Shallow embedding of the technical-indicator block of [src/app.py]
    (lines 166-211), of the fetch-and-render cycle around it (lines 49-241:
    guards, metrics, charts by title, recent-data table, error handler) and
    of the session state that gates it (lines 43-51).

    Modelling choices:
    - a pandas float is [pyfloat]: a finite value carried as an exact
      rational ([Fin]), the two infinities and NaN.  Rounding is not
      modelled; the arithmetic on infinities and NaN follows IEEE 754
      (x/0 = +inf for x > 0, 0/0 = NaN, 1 + inf = inf, 100/inf = 0).
      Signed zeros are not modelled: they change no RSI or MA value below
      (see [rs_of]).
    - a pandas Series is a list of [pyfloat]; NaN plays the role of the
      missing value (pandas prints it as NaN and [rolling] skips it).
    - a DataFrame is the record [frame]: the OHLCV columns as fetched and
      the derived columns that the block assigns ([df['MA20'] = ...]).
    - the closes fetched from the provider are finite numbers ([list Q]).
    - lines 105-147 of the file are dedented to column 0 although they
      belong to the [try] block opened at line 54; the model follows the
      evident intent and treats them as part of that block (they draw
      charts only and do not touch the indicators). *)

From Stdlib Require Import String.
From Stdlib Require Import QArith Qround List Bool Lia Arith Lqa Sorted ZArith DecimalString.
Import ListNotations.

Open Scope Q_scope.

(** ** Floats *)

Inductive pyfloat : Type :=
| Fin (q : Q)
| PInf
| NInf
| NaN.

Definition Qlt_bool (a b : Q) : bool := negb (Qle_bool b a).

Definition fadd (x y : pyfloat) : pyfloat :=
  match x, y with
  | NaN, _ | _, NaN => NaN
  | Fin a, Fin b => Fin (a + b)
  | PInf, NInf | NInf, PInf => NaN
  | PInf, _ | _, PInf => PInf
  | NInf, _ | _, NInf => NInf
  end.

Definition fneg (x : pyfloat) : pyfloat :=
  match x with
  | Fin a => Fin (- a)
  | PInf => NInf
  | NInf => PInf
  | NaN => NaN
  end.

Definition fsub (x y : pyfloat) : pyfloat := fadd x (fneg y).

Definition fdiv (x y : pyfloat) : pyfloat :=
  match x, y with
  | NaN, _ | _, NaN => NaN
  | Fin a, Fin b =>
      if Qeq_bool b 0 then
        (if Qlt_bool 0 a then PInf else if Qlt_bool a 0 then NInf else NaN)
      else Fin (a / b)
  | Fin _, PInf | Fin _, NInf => Fin 0
  | PInf, Fin b => if Qlt_bool b 0 then NInf else PInf
  | NInf, Fin b => if Qlt_bool b 0 then PInf else NInf
  | _, _ => NaN
  end.

(** [x > c] and [x < c] on floats; every comparison with NaN is false. *)
Definition fgt (x : pyfloat) (c : Q) : bool :=
  match x with
  | Fin a => Qlt_bool c a
  | PInf => true
  | _ => false
  end.

Definition flt (x : pyfloat) (c : Q) : bool :=
  match x with
  | Fin a => Qlt_bool a c
  | NInf => true
  | _ => false
  end.

Definition is_nan (x : pyfloat) : bool :=
  match x with NaN => true | _ => false end.

(** ** Series operations used by the block *)

Definition series := list pyfloat.

Fixpoint zip_with {A B C : Type} (f : A -> B -> C) (l : list A) (m : list B)
  : list C :=
  match l, m with
  | a :: l', b :: m' => f a b :: zip_with f l' m'
  | _, _ => []
  end.

(** [s.diff()]: NaN first, then [s[i] - s[i-1]]. *)
Definition diff (s : series) : series :=
  match s with
  | [] => []
  | _ :: t => NaN :: zip_with (fun prev cur => fsub cur prev) s t
  end.

(** [s.where(cond, other)]: keep the entries where [cond] holds, else [other]. *)
Definition where_ (cond : pyfloat -> bool) (s : series) (other : pyfloat)
  : series :=
  map (fun x => if cond x then x else other) s.

(** The positions [max(0, i-W+1) .. i] seen by a trailing window at [i]. *)
Definition window {A : Type} (W : nat) (s : list A) (i : nat) : list A :=
  firstn (S i - (S i - W)) (skipn (S i - W) s).

Definition count_valid (l : series) : nat :=
  length (filter (fun x => negb (is_nan x)) l).

Definition fsum (l : series) : pyfloat := fold_right fadd (Fin 0) l.

Definition qsum (l : list Q) : Q := fold_right Qplus 0 l.

Definition QW (W : nat) : Q := inject_Z (Z.of_nat W).

(** [s.rolling(window=W).mean()] at position [i]: [min_periods] defaults to
    [W], so fewer than [W] non-missing values give NaN. *)
Definition window_mean (W : nat) (s : series) (i : nat) : pyfloat :=
  let win := window W s i in
  if Nat.ltb (count_valid win) W then NaN
  else fdiv (fsum win) (Fin (QW W)).

Definition rolling_mean (W : nat) (s : series) : series :=
  map (window_mean W s) (seq 0 (length s)).

(** [series.iloc[-1]] on a non-empty series. *)
Definition iloc_last (s : series) : pyfloat := last s NaN.

(** ** The indicator formulas (lines 169, 175, 182-186) *)

Definition close_series (cs : list Q) : series := map Fin cs.

(** [df['Close'].rolling(window=W).mean()] *)
Definition ma_series (W : nat) (cs : list Q) : series :=
  rolling_mean W (close_series cs).

(** [delta = df['Close'].diff()] *)
Definition delta_of (cs : list Q) : series := diff (close_series cs).

(** [gain = (delta.where(delta > 0, 0)).rolling(window=14).mean()] *)
Definition gain_of (cs : list Q) : series :=
  rolling_mean 14 (where_ (fun d => fgt d 0) (delta_of cs) (Fin 0)).

(** [loss = (-delta.where(delta < 0, 0)).rolling(window=14).mean()] *)
Definition loss_of (cs : list Q) : series :=
  rolling_mean 14 (map fneg (where_ (fun d => flt d 0) (delta_of cs) (Fin 0))).

(** [rs = gain / loss].  Where the 14 losses of a window are all zero,
    pandas' mean of them is -0.0 and the quotient is -inf (or NaN for 0/0);
    without signed zeros the model gives +inf there.  The RSI is the same
    either way: 100 - 100/(1 + -inf) = 100 - (-0.0) = 100 and
    100 - 100/(1 + +inf) = 100, so no statement below is about the sign of
    that infinity. *)
Definition rs_of (cs : list Q) : series := zip_with fdiv (gain_of cs) (loss_of cs).

(** [100 - (100 / (1 + rs))] on one entry. *)
Definition rsi_formula (rs : pyfloat) : pyfloat :=
  fsub (Fin 100) (fdiv (Fin 100) (fadd (Fin 1) rs)).

(** [df['RSI'] = 100 - (100 / (1 + rs))] *)
Definition rsi_series (cs : list Q) : series := map rsi_formula (rs_of cs).

(** ** The DataFrame and the indicator block (lines 166-189) *)

Record frame : Type := mkFrame {
  Open : list Q;
  High : list Q;
  Low : list Q;
  Close : list Q;
  Volume : list Z;
  columns : list (String.string * series)
}.

(** [df[name] = s]: replaces the column in place, or appends it. *)
Fixpoint assign_col (name : String.string) (s : series)
  (cols : list (String.string * series)) : list (String.string * series) :=
  match cols with
  | [] => [(name, s)]
  | (n, c) :: rest =>
      if String.eqb n name then (name, s) :: rest
      else (n, c) :: assign_col name s rest
  end.

Definition set_column (name : String.string) (s : series) (df : frame) : frame :=
  {| Open := Open df; High := High df; Low := Low df; Close := Close df;
     Volume := Volume df; columns := assign_col name s (columns df) |}.

Fixpoint lookup_col (name : String.string) (cols : list (String.string * series))
  : option series :=
  match cols with
  | [] => None
  | (n, c) :: rest => if String.eqb n name then Some c else lookup_col name rest
  end.

(** The three values the block hands to the display; [None] is Python's
    [None]. *)
Record indicator_values : Type := mkValues {
  ma20_value : option pyfloat;
  ma50_value : option pyfloat;
  rsi_val : option pyfloat
}.

(** Lines 168-189: each indicator is computed only when [len(df)] reaches
    its window; otherwise its value is [None]. *)
Definition technical_indicators (df : frame) : frame * indicator_values :=
  let n := length (Close df) in
  let '(df1, ma20) :=
    if Nat.leb 20 n then
      let c := ma_series 20 (Close df) in
      (set_column "MA20"%string c df, Some (iloc_last c))
    else (df, None) in
  let '(df2, ma50) :=
    if Nat.leb 50 n then
      let c := ma_series 50 (Close df1) in
      (set_column "MA50"%string c df1, Some (iloc_last c))
    else (df1, None) in
  let '(df3, rsi) :=
    if Nat.leb 14 n then
      let c := rsi_series (Close df2) in
      (set_column "RSI"%string c df2, Some (iloc_last c))
    else (df2, None) in
  (df3, mkValues ma20 ma50 rsi).

(** ** Recent trading data table (lines 216-228)

    A row of the table: the date index, the OHLCV fields and the derived
    columns of that day. *)
Record bar : Type := mkBar {
  bar_date : Z;
  bar_open : Q;
  bar_high : Q;
  bar_low : Q;
  bar_close : Q;
  bar_volume : Z;
  bar_extra : list (String.string * pyfloat)
}.

(** [df.tail(k)] *)
Definition tail_rows {A : Type} (k : nat) (l : list A) : list A :=
  skipn (length l - k) l.

(** [sort_index(ascending=False)]: by date, newest first.  The dates of a
    download are distinct, so the order does not depend on the sorting
    algorithm. *)
Fixpoint insert_desc (b : bar) (l : list bar) : list bar :=
  match l with
  | [] => [b]
  | h :: t => if Z.ltb (bar_date h) (bar_date b) then b :: l else h :: insert_desc b t
  end.

Definition sort_desc (l : list bar) : list bar := fold_right insert_desc [] l.

(** numpy's [round(x, 2)]: [rint(100 x) / 100], ties to even, on exact
    values (the float representation error is not modelled). *)
Definition rint (x : Q) : Z :=
  let f := Qfloor x in
  let r := x - inject_Z f in
  if Qlt_bool r (1 # 2) then f
  else if Qlt_bool (1 # 2) r then (f + 1)%Z
  else if Z.even f then f else (f + 1)%Z.

Definition round2 (q : Q) : Q := inject_Z (rint (q * 100)) / 100.

(** [for col in ['Open', 'High', 'Low', 'Close']: display_df[col].round(2)];
    Volume and the derived columns are left as they are. *)
Definition round_bar (b : bar) : bar :=
  {| bar_date := bar_date b; bar_open := round2 (bar_open b);
     bar_high := round2 (bar_high b); bar_low := round2 (bar_low b);
     bar_close := round2 (bar_close b); bar_volume := bar_volume b;
     bar_extra := bar_extra b |}.

Definition recent_table (rows : list bar) : list bar :=
  map round_bar (sort_desc (tail_rows 10 rows)).

(** ** Display (lines 192-211) *)

(** What a cycle puts on the page.  Emojis are dropped from the texts;
    numbers are kept as values, not as their formatted strings; a chart is
    identified by its title only. *)
Inductive widget : Type :=
| Metric (label : String.string) (value : pyfloat) (note : option String.string)
| InfoBox (text : String.string)
| ErrorBox (text : String.string)
| SuccessBox (text : String.string)
| PriceMetric (label : String.string) (price change change_pct : Q)
| VolumeMetric (label : String.string) (volume : Z)
| Subheader (text : String.string)
| Chart (title : String.string)
| DataTable (rows : list bar)
| Expander (title : String.string) (lines : list String.string).

(** Python truthiness of [None] and of a numpy float: [None] and [0.0] are
    false, every other float (NaN and the infinities included) is true. *)
Definition truthy (v : option pyfloat) : bool :=
  match v with
  | None => false
  | Some (Fin q) => negb (Qeq_bool q 0)
  | Some _ => true
  end.

Definition rsi_signal (v : pyfloat) : String.string :=
  if fgt v 70 then "Overbought"%string
  else if flt v 30 then "Oversold"%string
  else "Neutral"%string.

(** [if value: st.metric(...) else: st.info("... Insufficient data")] *)
Definition show_value (label : String.string) (insufficient : String.string)
  (signal : pyfloat -> option String.string) (v : option pyfloat) : widget :=
  match v with
  | Some x => if truthy v then Metric label x (signal x) else InfoBox insufficient
  | None => InfoBox insufficient
  end.

Definition display_indicators (v : indicator_values) : list widget :=
  [ show_value "MA 20" "MA 20: Insufficient data" (fun _ => None) (ma20_value v);
    show_value "MA 50" "MA 50: Insufficient data" (fun _ => None) (ma50_value v);
    show_value "RSI (14)" "RSI: Insufficient data"
      (fun x => Some (rsi_signal x)) (rsi_val v) ]%string.

(** ** One fetch-and-render cycle (lines 49-241)

    [st.stop()] ends the cycle with the widgets shown so far ([Stopped]);
    an exception caught by the outer handler of line 233 gives [Failed];
    otherwise the cycle renders the metrics, the two charts, the indicators
    and the recent-data table ([Rendered], with the frame as the indicator
    block left it).  The plotting calls of lines 107-159 are taken to
    succeed, so their fallbacks are not modelled. *)

Inductive outcome : Type :=
| Stopped (shown : list widget)
| Failed (shown : list widget)
| Rendered (shown : list widget) (df : frame).

(** The rows of a frame as table rows.  The index of a download is its
    trading dates in ascending order; the model numbers them 0, 1, ...,
    which keeps that order. *)
Definition rows_of (df : frame) : list bar :=
  map (fun k =>
         {| bar_date := Z.of_nat k; bar_open := nth k (Open df) 0;
            bar_high := nth k (High df) 0; bar_low := nth k (Low df) 0;
            bar_close := nth k (Close df) 0; bar_volume := nth k (Volume df) 0%Z;
            bar_extra := map (fun '(name, c) => (name, nth k c NaN)) (columns df) |})
      (seq 0 (length (Close df))).

(** [f"{len(df)}"] *)
Definition nat_text (n : nat) : String.string :=
  NilZero.string_of_uint (Nat.to_uint n).

Definition dashboard (ticker period : String.string) (df : frame) : outcome :=
  let cs := Close df in
  let n := length cs in
  if Nat.eqb n 0 then
    Stopped [ErrorBox ("No data found for " ++ ticker);
             InfoBox "Make sure to use .NS suffix for NSE stocks (e.g., TCS.NS)"]%string
  else if Nat.ltb n 2 then
    Stopped [ErrorBox ("Insufficient data for " ++ ticker)]%string
  else
    let loaded :=
      SuccessBox ("Loaded " ++ nat_text n ++ " days of data for " ++ ticker)%string in
    let current_price := nth (n - 1) cs 0 in
    let prev_close := nth (n - 2) cs 0 in
    let change := current_price - prev_close in
    (* [change / prev_close] on Python floats raises ZeroDivisionError,
       which the inner [except (IndexError, KeyError, ValueError)] does not
       catch; the outer [except Exception] of line 233 does. *)
    if Qeq_bool prev_close 0 then
      Failed [loaded; ErrorBox "Unexpected error: float division by zero";
              InfoBox "Please try again or select a different stock";
              Expander "Debug Information"
                ["Ticker: " ++ ticker; "Period: " ++ period;
                 "Error type: ZeroDivisionError"]]%string
    else
      let change_pct := change / prev_close * 100 in
      let '(df', vals) := technical_indicators df in
      Rendered
        ([loaded;
          PriceMetric "Current Price" current_price change change_pct;
          Metric "Day High" (Fin (nth (n - 1) (High df) 0)) None;
          Metric "Day Low" (Fin (nth (n - 1) (Low df) 0)) None;
          VolumeMetric "Volume" (nth (n - 1) (Volume df) 0%Z);
          Subheader "Price Chart"; Chart (ticker ++ " Price Movement");
          Subheader "Trading Volume"; Chart "Volume";
          Subheader "Technical Indicators"]%string
         ++ display_indicators vals
         ++ [Subheader "Recent Trading Data";
             DataTable (recent_table (rows_of df'))]%string) df'.

Definition fresh_frame (cs : list Q) : frame :=
  {| Open := cs; High := cs; Low := cs; Close := cs;
     Volume := map (fun _ => 1000%Z) cs; columns := [] |}.

(** ** Readings of the spec used in the statements below *)

(** Arithmetic mean of the closes at indices [i-W+1 .. i]. *)
Definition spec_mean (W : nat) (cs : list Q) (i : nat) : Q :=
  qsum (map (fun k => nth k cs 0) (seq (S i - W) W)) / QW W.

(** Positive difference, zero otherwise. *)
Definition spec_gain (d : Q) : Q := if Qlt_bool 0 d then d else 0.

(** Absolute value of a negative difference, zero otherwise. *)
Definition spec_loss (d : Q) : Q := if Qlt_bool d 0 then - d else 0.

(** Day-over-day difference at index [k >= 1]. *)
Definition day_diff (cs : list Q) (k : nat) : Q := nth k cs 0 - nth (k - 1) cs 0.

(** 14-period mean gain and loss ending at [i]; index 0 has no previous
    close and counts as a zero gain and a zero loss. *)
Definition mean_gain (cs : list Q) (i : nat) : Q :=
  qsum (map (fun k => if Nat.eqb k 0 then 0 else spec_gain (day_diff cs k))
            (seq (i - 13) 14)) / 14.

Definition mean_loss (cs : list Q) (i : nat) : Q :=
  qsum (map (fun k => if Nat.eqb k 0 then 0 else spec_loss (day_diff cs k))
            (seq (i - 13) 14)) / 14.

(** [RSI = 100 - 100 / (1 + meanGain / meanLoss)] with float division. *)
Definition spec_rsi (mg ml : Q) : pyfloat :=
  fsub (Fin 100) (fdiv (Fin 100) (fadd (Fin 1) (fdiv (Fin mg) (Fin ml)))).

(** Strictly decreasing closes. *)
Fixpoint decreasing (l : list Q) : bool :=
  match l with
  | x :: ((y :: _) as t) => Qlt_bool y x && decreasing t
  | _ => true
  end.

Definition shown_of (o : outcome) : list widget :=
  match o with Stopped w | Failed w | Rendered w _ => w end.

(** Closed forms of the series fed to [rolling] in lines 183-184. *)
Definition diffs (cs : list Q) : list Q :=
  match cs with
  | [] => []
  | _ :: t => zip_with (fun prev cur => cur - prev) cs t
  end.

Definition gains_q (cs : list Q) : list Q :=
  match cs with
  | [] => []
  | _ :: _ => 0 :: map (fun d => if Qlt_bool 0 d then d else 0) (diffs cs)
  end.

Definition losses_q (cs : list Q) : list Q :=
  match cs with
  | [] => []
  | _ :: _ => 0 :: map (fun d => - (if Qlt_bool d 0 then d else 0)) (diffs cs)
  end.

(** Shape of a derived column: absent when the series is shorter than the
    window, otherwise as long as the series and undefined (NaN) at the
    indices before [first]. *)
Definition column_shape (c : option series) (n W first : nat) : Prop :=
  match c with
  | None => (n < W)%nat
  | Some s =>
      (W <= n)%nat /\ (length s = n)%nat /\
      (forall i, (i < first)%nat -> nth i s NaN = NaN)
  end.

(** ** Session state across reruns (lines 43-51)

    Streamlit reruns the script on every interaction; [st.session_state]
    survives the reruns.  [None] is a key absent from the state. *)
Record session : Type := mkSession {
  fetch_data : option bool;
  current_ticker : option String.string;
  current_period : option String.string
}.

Definition initial_session : session := mkSession None None None.

(** One rerun with the sidebar's [ticker] and [period]; [clicked] is the
    "Analyze Stock" button.  Returns the new state and the ticker/period
    fetched in this rerun ([None]: the landing page is shown). *)
Definition rerun (s : session) (ticker period : String.string) (clicked : bool)
  : session * option (String.string * String.string) :=
  let s' := if clicked then mkSession (Some true) (Some ticker) (Some period) else s in
  match fetch_data s' with
  | Some true =>
      (s', Some (match current_ticker s' with Some t => t | None => ticker end,
                 match current_period s' with Some p => p | None => period end))
  | _ => (s', None)
  end.

Fixpoint reruns (s : session) (inputs : list (String.string * String.string * bool))
  : list (option (String.string * String.string)) :=
  match inputs with
  | [] => []
  | (t, p, c) :: rest => let '(s', out) := rerun s t p c in out :: reruns s' rest
  end.

(** Strictly increasing closes. *)
Fixpoint increasing (l : list Q) : bool :=
  match l with
  | x :: ((y :: _) as t) => Qlt_bool x y && increasing t
  | _ => true
  end.

(** Sample inputs. *)
Definition dec14 : list Q := map (fun k => inject_Z (Z.of_nat k)) (rev (seq 1 14)).
Definition flat14 : list Q := repeat 5 14.
Definition inc14 : list Q := map (fun k => inject_Z (Z.of_nat k)) (seq 1 14).

Example dec14_rsi_last : iloc_last (rsi_series dec14) = Fin (0 # 182).
Proof. vm_compute. reflexivity. Qed.

Example flat14_rsi_last : iloc_last (rsi_series flat14) = NaN.
Proof. vm_compute. reflexivity. Qed.

Example ma3_sample : ma_series 3 [1; 2; 3; 4; 5] = [NaN; NaN; Fin (6 # 3); Fin (9 # 3); Fin (12 # 3)].
Proof. vm_compute. reflexivity. Qed.

(** * Lemmas *)

Lemma Qlt_bool_iff (a b : Q) : Qlt_bool a b = true <-> a < b.
Proof.
  unfold Qlt_bool. rewrite negb_true_iff. split; intro H.
  - apply Qnot_le_lt. intro Hle. apply Qle_bool_iff in Hle. congruence.
  - destruct (Qle_bool b a) eqn:E; [|reflexivity].
    apply Qle_bool_iff in E. exfalso. apply (Qlt_not_le _ _ H E).
Qed.

Lemma Qlt_bool_false (a b : Q) : Qlt_bool a b = false <-> b <= a.
Proof.
  unfold Qlt_bool. rewrite negb_false_iff. apply Qle_bool_iff.
Qed.

Lemma zip_with_length {A B C} (f : A -> B -> C) l m :
  length (zip_with f l m) = Nat.min (length l) (length m).
Proof.
  revert m. induction l as [|a l IH]; intros [|b m]; simpl; auto.
Qed.

Lemma nth_zip_with {A B C} (f : A -> B -> C) l m i da db dc :
  (i < length l)%nat -> (i < length m)%nat ->
  nth i (zip_with f l m) dc = f (nth i l da) (nth i m db).
Proof.
  revert m i. induction l as [|a l IH]; intros [|b m] [|i] Hl Hm;
    simpl in *; try lia; auto.
  apply IH; lia.
Qed.

Lemma zip_with_map_Fin (g : Q -> Q -> Q) (f : pyfloat -> pyfloat -> pyfloat) l m :
  (forall a b, f (Fin a) (Fin b) = Fin (g a b)) ->
  zip_with f (map Fin l) (map Fin m) = map Fin (zip_with g l m).
Proof.
  intros Hf. revert m. induction l as [|a l IH]; intros [|b m]; simpl; auto.
  rewrite Hf, IH. reflexivity.
Qed.

Lemma length_rolling_mean W s : length (rolling_mean W s) = length s.
Proof. unfold rolling_mean. now rewrite length_map, length_seq. Qed.

Lemma nth_rolling_mean W s i d :
  (i < length s)%nat -> nth i (rolling_mean W s) d = window_mean W s i.
Proof.
  intros Hi. unfold rolling_mean.
  rewrite (nth_indep _ d (window_mean W s 0)) by (rewrite length_map, length_seq; lia).
  rewrite map_nth, seq_nth by lia. reflexivity.
Qed.

Lemma window_map {A B} (f : A -> B) W s i :
  window W (map f s) i = map f (window W s i).
Proof. unfold window. now rewrite skipn_map, firstn_map. Qed.

Lemma length_window {A} W (s : list A) i :
  (i < length s)%nat -> length (window W s i) = Nat.min W (S i).
Proof.
  intros Hi. unfold window. rewrite length_firstn, length_skipn. lia.
Qed.

Lemma count_valid_Fin l : count_valid (map Fin l) = length l.
Proof. unfold count_valid. induction l; simpl; auto. Qed.

Lemma fsum_Fin l : fsum (map Fin l) = Fin (qsum l).
Proof. induction l; simpl; auto. unfold fsum in *. simpl. rewrite IHl. reflexivity. Qed.

Lemma QW_nonzero W : (1 <= W)%nat -> Qeq_bool (QW W) 0 = false.
Proof.
  intros HW. destruct (Qeq_bool (QW W) 0) eqn:E; auto.
  apply Qeq_bool_iff in E. unfold QW, Qeq in E. simpl in E. lia.
Qed.

(** Rolling mean of a series without missing values. *)
Lemma window_mean_Fin W l i :
  (1 <= W)%nat -> (i < length l)%nat ->
  window_mean W (map Fin l) i =
  if Nat.ltb (S i) W then NaN else Fin (qsum (window W l i) / QW W).
Proof.
  intros HW Hi. unfold window_mean.
  rewrite window_map, count_valid_Fin, length_window by exact Hi.
  destruct (Nat.ltb (S i) W) eqn:E.
  - apply Nat.ltb_lt in E. replace (Nat.min W (S i)) with (S i) by lia.
    now rewrite (proj2 (Nat.ltb_lt _ _) E).
  - apply Nat.ltb_ge in E. replace (Nat.min W (S i)) with W by lia.
    rewrite Nat.ltb_irrefl, fsum_Fin. simpl. now rewrite QW_nonzero.
Qed.

Lemma nth_rolling_mean_Fin W l i :
  (1 <= W)%nat -> (i < length l)%nat ->
  nth i (rolling_mean W (map Fin l)) NaN =
  if Nat.ltb (S i) W then NaN else Fin (qsum (window W l i) / QW W).
Proof.
  intros HW Hi. rewrite nth_rolling_mean by (rewrite length_map; exact Hi).
  now apply window_mean_Fin.
Qed.

Lemma skipn_cons_nth {A} (l : list A) a d :
  (a < length l)%nat -> skipn a l = nth a l d :: skipn (S a) l.
Proof.
  revert a. induction l as [|x l IH]; intros [|a] Ha; simpl in *; try lia; auto.
  apply IH. lia.
Qed.

Lemma firstn_skipn_seq {A} (l : list A) d m a :
  (a + m <= length l)%nat ->
  firstn m (skipn a l) = map (fun k => nth k l d) (seq a m).
Proof.
  revert a. induction m as [|m IH]; intros a Hm; [reflexivity|].
  rewrite (skipn_cons_nth l a d) by lia. cbn [firstn seq map].
  f_equal. apply IH. lia.
Qed.

(** A full window is the list of the entries at [i-W+1 .. i]. *)
Lemma window_full {A} W (l : list A) i d :
  (W <= S i)%nat -> (i < length l)%nat ->
  window W l i = map (fun k => nth k l d) (seq (S i - W) W).
Proof.
  intros HW Hi. unfold window.
  replace (S i - (S i - W))%nat with W by lia.
  apply firstn_skipn_seq. lia.
Qed.

Lemma nth_map_in {A B} (f : A -> B) l k d d' :
  (k < length l)%nat -> nth k (map f l) d = f (nth k l d').
Proof.
  intros Hk. rewrite (nth_indep _ d (f d')) by (rewrite length_map; exact Hk).
  apply map_nth.
Qed.

Lemma delta_of_Fin cs :
  delta_of cs = match cs with [] => [] | _ :: _ => NaN :: map Fin (diffs cs) end.
Proof.
  destruct cs as [|c t]; [reflexivity|]. unfold delta_of, close_series, diffs.
  change (map Fin (c :: t)) with (Fin c :: map Fin t) at 1. cbn [diff].
  f_equal. change (Fin c :: map Fin t) with (map Fin (c :: t)).
  apply (zip_with_map_Fin (fun prev cur => cur - prev)). reflexivity.
Qed.

Lemma gain_input cs :
  where_ (fun d => fgt d 0) (delta_of cs) (Fin 0) = map Fin (gains_q cs).
Proof.
  rewrite delta_of_Fin. destruct cs as [|c t]; [reflexivity|].
  unfold where_, gains_q. cbn [map]. f_equal. rewrite !map_map.
  apply map_ext. intros d. simpl. destruct (Qlt_bool 0 d); reflexivity.
Qed.

Lemma loss_input cs :
  map fneg (where_ (fun d => flt d 0) (delta_of cs) (Fin 0)) = map Fin (losses_q cs).
Proof.
  rewrite delta_of_Fin. destruct cs as [|c t]; [reflexivity|].
  unfold where_, losses_q. cbn [map]. f_equal. rewrite !map_map.
  apply map_ext. intros d. simpl. destruct (Qlt_bool d 0); reflexivity.
Qed.

Lemma length_diffs c t : length (diffs (c :: t)) = length t.
Proof.
  unfold diffs. rewrite zip_with_length. cbn [length]. apply Nat.min_r. lia.
Qed.

Lemma length_gains_q cs : length (gains_q cs) = length cs.
Proof.
  destruct cs as [|c t]; [reflexivity|]. unfold gains_q.
  cbn [length]. now rewrite length_map, length_diffs.
Qed.

Lemma length_losses_q cs : length (losses_q cs) = length cs.
Proof.
  destruct cs as [|c t]; [reflexivity|]. unfold losses_q.
  cbn [length]. now rewrite length_map, length_diffs.
Qed.

Lemma nth_diffs c t k :
  (k < length t)%nat ->
  nth k (diffs (c :: t)) 0 = day_diff (c :: t) (S k).
Proof.
  intros Hk. unfold diffs, day_diff.
  rewrite (nth_zip_with _ _ _ _ 0 0) by (simpl; lia).
  replace (S k - 1)%nat with k by lia. reflexivity.
Qed.

Lemma nth_gains_q cs k :
  (k < length cs)%nat ->
  nth k (gains_q cs) 0 = if Nat.eqb k 0 then 0 else spec_gain (day_diff cs k).
Proof.
  intros Hk. destruct cs as [|c t]; [simpl in Hk; lia|].
  destruct k as [|k]; [reflexivity|]. simpl in Hk. cbn [gains_q nth Nat.eqb].
  rewrite (nth_map_in _ _ _ _ 0) by (rewrite length_diffs; lia).
  rewrite nth_diffs by lia. reflexivity.
Qed.

Lemma nth_losses_q cs k :
  (k < length cs)%nat ->
  nth k (losses_q cs) 0 = if Nat.eqb k 0 then 0 else spec_loss (day_diff cs k).
Proof.
  intros Hk. destruct cs as [|c t]; [simpl in Hk; lia|].
  destruct k as [|k]; [reflexivity|]. simpl in Hk. cbn [losses_q nth Nat.eqb].
  rewrite (nth_map_in _ _ _ _ 0) by (rewrite length_diffs; lia).
  rewrite nth_diffs by lia. unfold spec_loss.
  destruct (Qlt_bool _ 0); reflexivity.
Qed.

Lemma gain_of_at cs i :
  (i < length cs)%nat ->
  nth i (gain_of cs) NaN = if Nat.ltb (S i) 14 then NaN else Fin (mean_gain cs i).
Proof.
  intros Hi. unfold gain_of. rewrite gain_input.
  rewrite nth_rolling_mean_Fin by (rewrite ?length_gains_q; lia).
  destruct (Nat.ltb (S i) 14) eqn:E; [reflexivity|]. apply Nat.ltb_ge in E.
  rewrite (window_full _ _ _ 0) by (rewrite ?length_gains_q; lia).
  replace (S i - 14)%nat with (i - 13)%nat by lia.
  unfold mean_gain. f_equal. f_equal. f_equal.
  apply map_ext_in. intros k Hk. apply in_seq in Hk.
  apply nth_gains_q. lia.
Qed.

Lemma loss_of_at cs i :
  (i < length cs)%nat ->
  nth i (loss_of cs) NaN = if Nat.ltb (S i) 14 then NaN else Fin (mean_loss cs i).
Proof.
  intros Hi. unfold loss_of. rewrite loss_input.
  rewrite nth_rolling_mean_Fin by (rewrite ?length_losses_q; lia).
  destruct (Nat.ltb (S i) 14) eqn:E; [reflexivity|]. apply Nat.ltb_ge in E.
  rewrite (window_full _ _ _ 0) by (rewrite ?length_losses_q; lia).
  replace (S i - 14)%nat with (i - 13)%nat by lia.
  unfold mean_loss. f_equal. f_equal. f_equal.
  apply map_ext_in. intros k Hk. apply in_seq in Hk.
  apply nth_losses_q. lia.
Qed.

Lemma length_gain_of cs : length (gain_of cs) = length cs.
Proof.
  unfold gain_of. rewrite length_rolling_mean. unfold where_.
  rewrite length_map, delta_of_Fin. destruct cs as [|c t]; [reflexivity|].
  cbn [length]. now rewrite length_map, length_diffs.
Qed.

Lemma length_loss_of cs : length (loss_of cs) = length cs.
Proof.
  unfold loss_of. rewrite length_rolling_mean. unfold where_.
  rewrite !length_map, delta_of_Fin. destruct cs as [|c t]; [reflexivity|].
  cbn [length]. now rewrite length_map, length_diffs.
Qed.

Lemma length_rsi_series cs : length (rsi_series cs) = length cs.
Proof.
  unfold rsi_series, rs_of. rewrite length_map, zip_with_length.
  rewrite length_gain_of, length_loss_of. lia.
Qed.

Lemma rsi_at cs i :
  (i < length cs)%nat ->
  nth i (rsi_series cs) NaN =
  rsi_formula (fdiv (nth i (gain_of cs) NaN) (nth i (loss_of cs) NaN)).
Proof.
  intros Hi. unfold rsi_series.
  change NaN with (rsi_formula NaN) at 1. rewrite map_nth. unfold rs_of.
  rewrite (nth_zip_with _ _ _ _ NaN NaN)
    by (rewrite ?length_gain_of, ?length_loss_of; lia).
  reflexivity.
Qed.

Lemma ma_series_nan_prefix W cs i :
  (i < length cs)%nat -> (i < W - 1)%nat -> nth i (ma_series W cs) NaN = NaN.
Proof.
  intros Hi Hr. unfold ma_series, close_series.
  rewrite nth_rolling_mean_Fin by lia.
  now rewrite (proj2 (Nat.ltb_lt _ _)) by lia.
Qed.

Lemma rsi_series_at cs i :
  (i < length cs)%nat ->
  ((i < 13)%nat -> nth i (rsi_series cs) NaN = NaN) /\
  ((13 <= i)%nat ->
   nth i (rsi_series cs) NaN = spec_rsi (mean_gain cs i) (mean_loss cs i)).
Proof.
  intros Hi. rewrite rsi_at, gain_of_at, loss_of_at by exact Hi.
  split; intros Hr.
  - now rewrite (proj2 (Nat.ltb_lt _ _)) by lia.
  - rewrite (proj2 (Nat.ltb_ge _ _)) by lia. reflexivity.
Qed.

(** ** C2: moving averages *)

(** C2. For every window [W >= 1] (20 and 50 in the program) and every
    close series of length at least [W], [rolling(window=W).mean()] is
    undefined (NaN) at every index [i < W-1] and equals the arithmetic mean
    of the closes at indices [i-W+1 .. i] at every index [i >= W-1]. *)
Theorem ma_series_spec (W : nat) (cs : list Q) (i : nat) :
  (1 <= W)%nat -> (W <= length cs)%nat -> (i < length cs)%nat ->
  length (ma_series W cs) = length cs /\
  ((i < W - 1)%nat -> nth i (ma_series W cs) NaN = NaN) /\
  ((W - 1 <= i)%nat -> nth i (ma_series W cs) NaN = Fin (spec_mean W cs i)).
Proof.
  intros HW Hlen Hi. unfold ma_series, close_series.
  split; [now rewrite length_rolling_mean, length_map|].
  rewrite nth_rolling_mean_Fin by assumption.
  split; intros Hr.
  - now rewrite (proj2 (Nat.ltb_lt _ _)) by lia.
  - rewrite (proj2 (Nat.ltb_ge _ _)) by lia.
    rewrite (window_full _ _ _ 0) by lia. reflexivity.
Qed.

Lemma ma_series_spec_witness :
  ((1 <= 20)%nat /\ (20 <= length (map (fun k => inject_Z (Z.of_nat k)) (seq 1 25)))%nat /\
   (22 < length (map (fun k => inject_Z (Z.of_nat k)) (seq 1 25)))%nat) /\
  nth 22 (ma_series 20 (map (fun k => inject_Z (Z.of_nat k)) (seq 1 25))) NaN
  = Fin (spec_mean 20 (map (fun k => inject_Z (Z.of_nat k)) (seq 1 25)) 22).
Proof.
  split; [vm_compute; repeat split; lia|].
  apply (ma_series_spec 20 (map (fun k => inject_Z (Z.of_nat k)) (seq 1 25)) 22);
    vm_compute; lia.
Defined.

(** ** C1: the RSI series *)

(** C1 (amended). For every close series of length at least 14, the RSI
    series has the same length; it is undefined (NaN) at every index
    [i < 13]; at every index [i >= 13] it is [100 - 100/(1 + RS)] with
    [RS = meanGain/meanLoss] (float division), where meanGain and meanLoss
    are the sums over the 14 positions [i-13 .. i] of the gains (positive
    day-over-day differences, zero otherwise) and the losses (absolute
    values of negative differences, zero otherwise) divided by 14, the
    position 0, which has no previous close, counting as a zero gain and a
    zero loss.  So RSI is already defined at index 13. *)
Theorem rsi_series_spec (cs : list Q) (i : nat) :
  (14 <= length cs)%nat -> (i < length cs)%nat ->
  length (rsi_series cs) = length cs /\
  ((i < 13)%nat -> nth i (rsi_series cs) NaN = NaN) /\
  ((13 <= i)%nat ->
   nth i (rsi_series cs) NaN = spec_rsi (mean_gain cs i) (mean_loss cs i)).
Proof.
  intros Hlen Hi. split; [apply length_rsi_series|].
  rewrite rsi_at, gain_of_at, loss_of_at by exact Hi.
  split; intros Hr.
  - now rewrite (proj2 (Nat.ltb_lt _ _)) by lia.
  - rewrite (proj2 (Nat.ltb_ge _ _)) by lia. reflexivity.
Qed.

Lemma rsi_series_spec_witness :
  ((14 <= length dec14)%nat /\ (13 < length dec14)%nat) /\
  nth 13 (rsi_series dec14) NaN = spec_rsi (mean_gain dec14 13) (mean_loss dec14 13).
Proof.
  split; [vm_compute; split; lia|].
  apply (rsi_series_spec dec14 13); vm_compute; lia.
Defined.

(** C1 fails as stated: on the 14 strictly decreasing closes 14, 13, ..., 1
    the RSI at index 13 is defined, so RSI is not undefined at every
    index below 14. *)
Lemma rsi_defined_at_13 :
  ~ (forall i : nat, (i < 14)%nat -> nth i (rsi_series dec14) NaN = NaN).
Proof.
  intros H. specialize (H 13%nat ltac:(lia)). vm_compute in H. discriminate H.
Qed.

(** ** Sums, means and the RSI formula *)

Lemma qsum_nonneg l : Forall (fun x => 0 <= x) l -> 0 <= qsum l.
Proof.
  induction 1 as [|x l Hx _ IH]; simpl; [apply Qle_refl | lra].
Qed.

Lemma qsum_ge_in l x :
  Forall (fun y => 0 <= y) l -> In x l -> x <= qsum l.
Proof.
  induction 1 as [|y l Hy Hl IH]; intros Hin; [destruct Hin|].
  simpl. destruct Hin as [<-|Hin].
  - pose proof (qsum_nonneg l Hl). lra.
  - specialize (IH Hin). lra.
Qed.

Lemma qsum_zero l : Forall (fun y => y == 0) l -> qsum l == 0.
Proof.
  induction 1 as [|y l Hy _ IH]; simpl; [reflexivity | lra].
Qed.

Lemma spec_gain_nonneg d : 0 <= spec_gain d.
Proof.
  unfold spec_gain. destruct (Qlt_bool 0 d) eqn:E; [|apply Qle_refl].
  apply Qlt_bool_iff in E. lra.
Qed.

Lemma spec_loss_nonneg d : 0 <= spec_loss d.
Proof.
  unfold spec_loss. destruct (Qlt_bool d 0) eqn:E; [|apply Qle_refl].
  apply Qlt_bool_iff in E. lra.
Qed.

Lemma div14_nonneg a : 0 <= a -> 0 <= a / 14.
Proof.
  intros Ha. apply Qle_shift_div_l; [reflexivity|]. lra.
Qed.

Lemma loss_terms_nonneg cs ks :
  Forall (fun y => 0 <= y)
    (map (fun k => if Nat.eqb k 0 then 0 else spec_loss (day_diff cs k)) ks).
Proof.
  apply Forall_forall. intros x Hx. apply in_map_iff in Hx.
  destruct Hx as [k [<- _]]. destruct (Nat.eqb k 0);
    [apply Qle_refl | apply spec_loss_nonneg].
Qed.

Lemma mean_gain_nonneg cs i : 0 <= mean_gain cs i.
Proof.
  unfold mean_gain. apply div14_nonneg, qsum_nonneg.
  apply Forall_forall. intros x Hx. apply in_map_iff in Hx.
  destruct Hx as [k [<- _]]. destruct (Nat.eqb k 0);
    [apply Qle_refl | apply spec_gain_nonneg].
Qed.

Lemma mean_loss_nonneg cs i : 0 <= mean_loss cs i.
Proof.
  unfold mean_loss. apply div14_nonneg, qsum_nonneg.
  apply Forall_forall. intros x Hx. apply in_map_iff in Hx.
  destruct Hx as [k [<- _]]. destruct (Nat.eqb k 0);
    [apply Qle_refl | apply spec_loss_nonneg].
Qed.

Lemma Qeq_bool_pos q : 0 < q -> Qeq_bool q 0 = false.
Proof.
  intros Hq. destruct (Qeq_bool q 0) eqn:E; [|reflexivity].
  apply Qeq_bool_iff in E. lra.
Qed.

(** With a positive mean loss every operation of the formula stays finite. *)
Lemma spec_rsi_pos_loss g l :
  0 <= g -> 0 < l ->
  exists r, spec_rsi g l = Fin r /\ 0 <= r /\ r <= 100 /\
            r == 100 - 100 / (1 + g / l).
Proof.
  intros Hg Hl.
  assert (Hgl : 0 <= g / l) by (apply Qle_shift_div_l; [exact Hl | lra]).
  assert (Hy : 0 < 1 + g / l) by lra.
  unfold spec_rsi. cbn [fdiv]. rewrite (Qeq_bool_pos l Hl). cbn [fadd].
  cbn [fdiv]. rewrite (Qeq_bool_pos _ Hy). unfold fsub. cbn [fneg fadd].
  exists (100 + - (100 / (1 + g / l))).
  assert (H1 : 0 <= 100 / (1 + g / l))
    by (apply Qle_shift_div_l; [exact Hy | lra]).
  assert (H2 : 100 / (1 + g / l) <= 100)
    by (apply Qle_shift_div_r; [exact Hy | lra]).
  split; [reflexivity|]. repeat split; lra.
Qed.

(** With a zero mean loss the model's division gives an infinity or NaN (see [rs_of] for the sign). *)
Lemma spec_rsi_zero_loss g l :
  0 <= g -> l == 0 ->
  (0 < g -> spec_rsi g l = Fin 100) /\ (g == 0 -> spec_rsi g l = NaN).
Proof.
  intros Hg Hl. unfold spec_rsi. cbn [fdiv].
  rewrite (proj2 (Qeq_bool_iff l 0) Hl). split; intros Hg'.
  - rewrite (proj2 (Qlt_bool_iff 0 g) Hg'). reflexivity.
  - rewrite (proj2 (Qlt_bool_false 0 g)) by lra.
    rewrite (proj2 (Qlt_bool_false g 0)) by lra. reflexivity.
Qed.

Lemma gain_loss_defined cs i l :
  (i < length cs)%nat -> nth i (loss_of cs) NaN = Fin l ->
  (13 <= i)%nat /\ l = mean_loss cs i /\
  nth i (gain_of cs) NaN = Fin (mean_gain cs i) /\
  nth i (rsi_series cs) NaN = spec_rsi (mean_gain cs i) (mean_loss cs i).
Proof.
  intros Hi Hl. rewrite loss_of_at in Hl by exact Hi.
  destruct (Nat.ltb (S i) 14) eqn:E; [discriminate|]. apply Nat.ltb_ge in E.
  injection Hl as <-. rewrite rsi_at, gain_of_at, loss_of_at by exact Hi.
  rewrite (proj2 (Nat.ltb_ge _ _)) by lia. repeat split; auto. lia.
Qed.

(** ** C4: RSI bounds when the mean loss is positive *)

(** C4. At every index where the 14-period mean of the losses is strictly
    positive, the RSI is a finite value in [0, 100]. *)
Theorem rsi_bounded_pos_loss (cs : list Q) (i : nat) (l : Q) :
  (i < length cs)%nat -> nth i (loss_of cs) NaN = Fin l -> 0 < l ->
  exists r, nth i (rsi_series cs) NaN = Fin r /\ 0 <= r /\ r <= 100.
Proof.
  intros Hi Hl Hpos.
  destruct (gain_loss_defined cs i l Hi Hl) as (_ & -> & _ & ->).
  destruct (spec_rsi_pos_loss (mean_gain cs i) (mean_loss cs i))
    as (r & Hr & H0 & H100 & _); [apply mean_gain_nonneg | exact Hpos |].
  exists r. auto.
Qed.

Lemma rsi_bounded_pos_loss_witness :
  ((13 < length dec14)%nat /\ nth 13 (loss_of dec14) NaN = Fin (13 # 14) /\ 0 < 13 # 14) /\
  exists r, nth 13 (rsi_series dec14) NaN = Fin r /\ 0 <= r /\ r <= 100.
Proof.
  split; [split; [vm_compute; lia | split; [vm_compute; reflexivity | reflexivity]]|].
  apply (rsi_bounded_pos_loss dec14 13 (13 # 14));
    [vm_compute; lia | vm_compute; reflexivity | reflexivity].
Defined.

(** ** C3: RSI when the mean loss is zero *)

(** C3 (amended). The division by the mean loss is not guarded.  At an
    index where the 14-period mean of the losses is 0, the mean gain [g] is
    defined and non-negative; if [g > 0] the RSI is exactly 100; if [g = 0]
    (no change over the window) the RSI is undefined (NaN). *)
Theorem rsi_zero_loss (cs : list Q) (i : nat) (l : Q) :
  (i < length cs)%nat -> nth i (loss_of cs) NaN = Fin l -> l == 0 ->
  exists g, nth i (gain_of cs) NaN = Fin g /\ 0 <= g /\
    (0 < g -> nth i (rsi_series cs) NaN = Fin 100) /\
    (g == 0 -> nth i (rsi_series cs) NaN = NaN).
Proof.
  intros Hi Hl Hz.
  destruct (gain_loss_defined cs i l Hi Hl) as (_ & Heq & Hg & ->).
  subst l. exists (mean_gain cs i).
  pose proof (mean_gain_nonneg cs i) as Hg0.
  destruct (spec_rsi_zero_loss (mean_gain cs i) (mean_loss cs i) Hg0 Hz).
  auto.
Qed.

Lemma rsi_zero_loss_witness :
  ((13 < length flat14)%nat /\ nth 13 (loss_of flat14) NaN = Fin (0 # 14) /\ 0 # 14 == 0) /\
  exists g, nth 13 (gain_of flat14) NaN = Fin g /\ 0 <= g /\
    (0 < g -> nth 13 (rsi_series flat14) NaN = Fin 100) /\
    (g == 0 -> nth 13 (rsi_series flat14) NaN = NaN).
Proof.
  split; [split; [vm_compute; lia | split; [vm_compute; reflexivity | reflexivity]]|].
  apply (rsi_zero_loss flat14 13 (0 # 14));
    [vm_compute; lia | vm_compute; reflexivity | reflexivity].
Defined.

(** C3 fails as stated: on 14 equal closes the mean loss at index 13 is 0
    and the RSI there is NaN, not a finite boundary value. *)
Lemma rsi_nan_flat14 :
  exists l, nth 13 (loss_of flat14) NaN = Fin l /\ l == 0 /\
            nth 13 (rsi_series flat14) NaN = NaN.
Proof.
  exists (0 # 14). vm_compute. split; [reflexivity|]. split; reflexivity.
Qed.

(** ** The indicator block *)

Lemma ti_values df :
  snd (technical_indicators df) =
  mkValues
    (if Nat.leb 20 (length (Close df)) then Some (iloc_last (ma_series 20 (Close df))) else None)
    (if Nat.leb 50 (length (Close df)) then Some (iloc_last (ma_series 50 (Close df))) else None)
    (if Nat.leb 14 (length (Close df)) then Some (iloc_last (rsi_series (Close df))) else None).
Proof.
  unfold technical_indicators.
  destruct (Nat.leb 20 _), (Nat.leb 50 _), (Nat.leb 14 _); reflexivity.
Qed.

Lemma ti_fields df :
  let df' := fst (technical_indicators df) in
  Open df' = Open df /\ High df' = High df /\ Low df' = Low df /\
  Close df' = Close df /\ Volume df' = Volume df.
Proof.
  unfold technical_indicators.
  destruct (Nat.leb 20 _), (Nat.leb 50 _), (Nat.leb 14 _); repeat split.
Qed.

Lemma ti_columns df :
  columns df = [] ->
  let cols := columns (fst (technical_indicators df)) in
  lookup_col "MA20" cols =
    (if Nat.leb 20 (length (Close df)) then Some (ma_series 20 (Close df)) else None) /\
  lookup_col "MA50" cols =
    (if Nat.leb 50 (length (Close df)) then Some (ma_series 50 (Close df)) else None) /\
  lookup_col "RSI" cols =
    (if Nat.leb 14 (length (Close df)) then Some (rsi_series (Close df)) else None).
Proof.
  intros H. unfold technical_indicators, set_column.
  destruct (Nat.leb 20 _), (Nat.leb 50 _), (Nat.leb 14 _); cbn [fst columns];
    rewrite H; repeat split.
Qed.

Lemma last_nth {A} (l : list A) d : last l d = nth (length l - 1) l d.
Proof.
  induction l as [|a l IH]; [reflexivity|].
  destruct l as [|b l]; [reflexivity|].
  change (last (a :: b :: l) d) with (last (b :: l) d). rewrite IH.
  cbn [length]. replace (S (S (length l)) - 1)%nat with (S (S (length l) - 1)) by lia.
  reflexivity.
Qed.

Lemma decreasing_nth l k :
  decreasing l = true -> (S k < length l)%nat -> nth (S k) l 0 < nth k l 0.
Proof.
  revert k. induction l as [|x t IH]; intros k Hd Hk; [simpl in Hk; lia|].
  destruct t as [|y t']; [simpl in Hk; lia|].
  cbn [decreasing] in Hd. apply andb_true_iff in Hd as [Hxy Hd].
  destruct k as [|k].
  - apply Qlt_bool_iff in Hxy. exact Hxy.
  - apply (IH k Hd). simpl in *. lia.
Qed.

(** On strictly decreasing closes the last RSI is exactly 0. *)
Lemma rsi_last_decreasing cs :
  (14 <= length cs)%nat -> decreasing cs = true ->
  exists r, iloc_last (rsi_series cs) = Fin r /\ r == 0.
Proof.
  intros Hlen Hd. set (i := (length cs - 1)%nat).
  assert (Hi : (i < length cs)%nat) by (unfold i; lia).
  assert (Hdiff : forall k, (1 <= k)%nat -> (k < length cs)%nat -> day_diff cs k < 0).
  { intros k Hk1 Hk2. unfold day_diff.
    pose proof (decreasing_nth cs (k - 1) Hd ltac:(lia)) as H.
    replace (S (k - 1)) with k in H by lia. lra. }
  assert (Hg : mean_gain cs i == 0).
  { unfold mean_gain.
    match goal with |- qsum ?l / _ == _ => assert (Hall : Forall (fun y => y == 0) l) end.
    2:{ rewrite (qsum_zero _ Hall). vm_compute. reflexivity. }
    apply Forall_forall. intros x Hx. apply in_map_iff in Hx.
    destruct Hx as [k [<- Hk]]. apply in_seq in Hk.
    destruct (Nat.eqb k 0) eqn:E; [reflexivity|]. apply Nat.eqb_neq in E.
    unfold spec_gain. rewrite (proj2 (Qlt_bool_false 0 _)); [reflexivity|].
    pose proof (Hdiff k ltac:(lia) ltac:(unfold i in Hk; lia)). lra. }
  assert (Hl : 0 < mean_loss cs i).
  { unfold mean_loss. apply Qlt_shift_div_l; [reflexivity|].
    assert (Hin : In (spec_loss (day_diff cs i))
              (map (fun k => if Nat.eqb k 0 then 0 else spec_loss (day_diff cs k))
                   (seq (i - 13) 14))).
    { apply in_map_iff. exists i. split.
      - rewrite (proj2 (Nat.eqb_neq i 0)) by (unfold i; lia). reflexivity.
      - apply in_seq. lia. }
    assert (Hpos : 0 < spec_loss (day_diff cs i)).
    { pose proof (Hdiff i ltac:(unfold i; lia) Hi) as Hneg. unfold spec_loss.
      rewrite (proj2 (Qlt_bool_iff _ 0) Hneg). lra. }
    pose proof (qsum_ge_in _ _ (loss_terms_nonneg cs _) Hin).
    lra. }
  destruct (spec_rsi_pos_loss (mean_gain cs i) (mean_loss cs i))
    as (r & Hr & _ & _ & Hreq); [apply mean_gain_nonneg | exact Hl |].
  exists r. split.
  - unfold iloc_last. rewrite last_nth, length_rsi_series. fold i.
    destruct (rsi_series_at cs i Hi) as (_ & H13).
    rewrite H13 by (unfold i; lia). exact Hr.
  - rewrite Hreq, Hg. unfold Qdiv at 2. rewrite Qmult_0_l.
    vm_compute. reflexivity.
Qed.

(** ** C8: strictly decreasing closes *)

(** C8. For every strictly decreasing close series of length at least 14,
    the RSI value the block reads at the last index ([df['RSI'].iloc[-1]])
    is 0: the mean gain is 0 and the mean loss positive. *)
Theorem rsi_decreasing_zero (df : frame) :
  (14 <= length (Close df))%nat -> decreasing (Close df) = true ->
  exists r, rsi_val (snd (technical_indicators df)) = Some (Fin r) /\ r == 0.
Proof.
  intros Hlen Hd. rewrite ti_values. cbn [rsi_val].
  rewrite (proj2 (Nat.leb_le _ _) Hlen).
  destruct (rsi_last_decreasing (Close df) Hlen Hd) as (r & Hr & Hr0).
  exists r. rewrite Hr. auto.
Qed.

Lemma rsi_decreasing_zero_witness :
  ((14 <= length (Close (fresh_frame dec14)))%nat /\ decreasing (Close (fresh_frame dec14)) = true) /\
  exists r, rsi_val (snd (technical_indicators (fresh_frame dec14))) = Some (Fin r) /\ r == 0.
Proof.
  split; [split; [vm_compute; lia | vm_compute; reflexivity]|].
  apply (rsi_decreasing_zero (fresh_frame dec14)); [vm_compute; lia | vm_compute; reflexivity].
Defined.

(** ** C10: display by truthiness *)

Lemma truthy_some_false x :
  truthy (Some x) = false <-> exists q, x = Fin q /\ q == 0.
Proof.
  destruct x as [q| | |]; cbn [truthy]; split; intros H;
    try discriminate; try (destruct H as (q' & Hq & _); discriminate).
  - apply negb_false_iff, Qeq_bool_iff in H. eauto.
  - destruct H as (q' & Hq & H0). injection Hq as <-.
    apply negb_false_iff, Qeq_bool_iff. exact H0.
Qed.

(** C10. The display branches on Python truthiness, not on definedness:
    [None] shows "Insufficient data"; a computed value shows as a metric
    exactly when it is not 0, and a computed 0 shows "Insufficient data".
    In particular on strictly decreasing closes (at least 14 of them) the
    computed RSI 0 is shown as "RSI: Insufficient data". *)
Theorem display_by_truthiness (label insuf : string)
  (signal : pyfloat -> option string) (x : pyfloat) (df : frame) :
  show_value label insuf signal None = InfoBox insuf /\
  (show_value label insuf signal (Some x) = InfoBox insuf <->
     exists q, x = Fin q /\ q == 0) /\
  (show_value label insuf signal (Some x) = Metric label x (signal x) <->
     ~ exists q, x = Fin q /\ q == 0) /\
  ((14 <= length (Close df))%nat -> decreasing (Close df) = true ->
   nth 2 (display_indicators (snd (technical_indicators df))) (InfoBox "")
   = InfoBox "RSI: Insufficient data").
Proof.
  split; [reflexivity|]. unfold show_value.
  pose proof (truthy_some_false x) as Ht.
  split; [|split].
  all: try (destruct (truthy (Some x)); split; intros H;
    first [ discriminate | reflexivity | (apply Ht in H; discriminate)
          | (apply Ht; reflexivity) | (intros Hz; apply Ht in Hz; discriminate)
          | (exfalso; apply H, Ht; reflexivity) ]).
  - intros Hlen Hd. rewrite ti_values. cbn [display_indicators nth rsi_val].
    rewrite (proj2 (Nat.leb_le _ _) Hlen).
    destruct (rsi_last_decreasing (Close df) Hlen Hd) as (r & Hr & Hr0).
    rewrite Hr. cbn [show_value].
    replace (truthy (Some (Fin r))) with false by (symmetry; apply truthy_some_false; eauto).
    reflexivity.
Qed.

Lemma display_by_truthiness_witness :
  ((14 <= length (Close (fresh_frame dec14)))%nat /\ decreasing (Close (fresh_frame dec14)) = true) /\
  nth 2 (display_indicators (snd (technical_indicators (fresh_frame dec14)))) (InfoBox "")
  = InfoBox "RSI: Insufficient data".
Proof.
  split; [split; [vm_compute; lia | vm_compute; reflexivity]|].
  destruct (display_by_truthiness "RSI (14)" "RSI: Insufficient data"
              (fun v => Some (rsi_signal v)) (Fin 0) (fresh_frame dec14))
    as (_ & _ & _ & H).
  apply H; [vm_compute; lia | vm_compute; reflexivity].
Defined.

(** ** C5: one indicator short of data *)

(** C5 (defect). On the 14 strictly decreasing closes 14, 13, ..., 1 the
    two moving averages are [None] (fewer than 20 and 50 bars) and the RSI
    is computed, with value 0; yet the display reports all three as
    "Insufficient data", because it tests [if rsi_val:] and 0.0 is false. *)
Theorem rsi_zero_reported_insufficient :
  let v := snd (technical_indicators (fresh_frame dec14)) in
  ma20_value v = None /\ ma50_value v = None /\
  rsi_val v = Some (Fin (0 # 182)) /\
  display_indicators v =
    [InfoBox "MA 20: Insufficient data"; InfoBox "MA 50: Insufficient data";
     InfoBox "RSI: Insufficient data"] /\
  In (InfoBox "RSI: Insufficient data")
     (shown_of (dashboard "RELIANCE.NS" "1mo" (fresh_frame dec14))).
Proof.
  vm_compute. repeat split. repeat (first [left; reflexivity | right]).
Qed.

(** ** C6: empty series *)

(** C6 (amended). For an empty series the cycle never reaches the indicator
    block: it shows "No data found" with a hint and stops, without an
    exception; no indicator result is shown.  Applied to an empty series,
    the block itself would set MA20, MA50 and RSI to [None] and show
    "Insufficient data" for each. *)
Theorem empty_series_stops (ticker period : string) (df : frame) :
  Close df = [] ->
  dashboard ticker period df =
    Stopped [ErrorBox ("No data found for " ++ ticker);
             InfoBox "Make sure to use .NS suffix for NSE stocks (e.g., TCS.NS)"] /\
  display_indicators (snd (technical_indicators df)) =
    [InfoBox "MA 20: Insufficient data"; InfoBox "MA 50: Insufficient data";
     InfoBox "RSI: Insufficient data"].
Proof.
  intros H. split.
  - unfold dashboard. rewrite H. reflexivity.
  - rewrite ti_values, H. reflexivity.
Qed.

Lemma empty_series_stops_witness :
  Close (fresh_frame []) = [] /\
  dashboard "RELIANCE.NS" "1mo" (fresh_frame []) =
    Stopped [ErrorBox "No data found for RELIANCE.NS";
             InfoBox "Make sure to use .NS suffix for NSE stocks (e.g., TCS.NS)"].
Proof.
  split; [reflexivity|].
  apply (empty_series_stops "RELIANCE.NS" "1mo" (fresh_frame []) eq_refl).
Defined.

(** C6 fails as stated: on an empty series the dashboard shows no
    "Insufficient data" result for the indicators. *)
Lemma empty_series_no_indicator_result :
  ~ In (InfoBox "MA 20: Insufficient data")
       (shown_of (dashboard "RELIANCE.NS" "1mo" (fresh_frame []))).
Proof.
  vm_compute. intros [H|[H|H]]; try discriminate; exact H.
Qed.

(** ** C7: shape of the derived columns *)

(** C7 (amended). On a freshly fetched frame, each derived column (MA20,
    MA50, RSI) is created only when the series reaches the indicator's
    window; it then has the length of the source series, and its entries
    before index [W-1] (19, 49 and 13) are undefined (NaN).  The RSI column
    is not undefined before index 14: from index 13 on it holds the RSI of
    the mean gain and loss of the last 14 positions, position 0 counting as
    a zero difference. *)
Theorem derived_columns_shape (df : frame) :
  columns df = [] ->
  let n := length (Close df) in
  let cols := columns (fst (technical_indicators df)) in
  column_shape (lookup_col "MA20" cols) n 20 19 /\
  column_shape (lookup_col "MA50" cols) n 50 49 /\
  column_shape (lookup_col "RSI" cols) n 14 13 /\
  (forall i, (14 <= n)%nat -> (13 <= i < n)%nat ->
   exists s, lookup_col "RSI" cols = Some s /\
     nth i s NaN = spec_rsi (mean_gain (Close df) i) (mean_loss (Close df) i)).
Proof.
  intros H. pose proof (ti_columns df H) as Hc. cbv zeta in Hc |- *.
  destruct Hc as (-> & -> & ->).
  split; [|split; [|split]].
  - destruct (Nat.leb 20 _) eqn:E; cbn [column_shape].
    + apply Nat.leb_le in E. split; [exact E|].
      split; [unfold ma_series, close_series; now rewrite length_rolling_mean, length_map|].
      intros i Hi. apply ma_series_nan_prefix; lia.
    + apply Nat.leb_gt in E. exact E.
  - destruct (Nat.leb 50 _) eqn:E; cbn [column_shape].
    + apply Nat.leb_le in E. split; [exact E|].
      split; [unfold ma_series, close_series; now rewrite length_rolling_mean, length_map|].
      intros i Hi. apply ma_series_nan_prefix; lia.
    + apply Nat.leb_gt in E. exact E.
  - destruct (Nat.leb 14 _) eqn:E; cbn [column_shape].
    + apply Nat.leb_le in E. split; [exact E|].
      split; [apply length_rsi_series|].
      intros i Hi. apply (rsi_series_at (Close df) i); lia.
    + apply Nat.leb_gt in E. exact E.
  - intros i Hn Hi. rewrite (proj2 (Nat.leb_le _ _) Hn).
    exists (rsi_series (Close df)). split; [reflexivity|].
    apply (rsi_series_at (Close df) i); lia.
Qed.

Lemma derived_columns_shape_witness :
  columns (fresh_frame dec14) = [] /\
  column_shape (lookup_col "RSI" (columns (fst (technical_indicators (fresh_frame dec14)))))
    14 14 13 /\
  exists s, lookup_col "RSI" (columns (fst (technical_indicators (fresh_frame dec14)))) = Some s /\
    nth 13 s NaN = spec_rsi (mean_gain dec14 13) (mean_loss dec14 13).
Proof.
  split; [reflexivity|].
  destruct (derived_columns_shape (fresh_frame dec14) eq_refl) as (_ & _ & H & H').
  split; [exact H|].
  apply (H' 13%nat); vm_compute; [lia | split; lia].
Defined.

(** C7 fails as stated: on the closes 14, 13, ..., 1 the RSI column of the
    frame holds 0 at index 13, below the window size 14, so its entries
    before the window are neither all undefined nor all non-zero. *)
Lemma rsi_column_zero_at_13 :
  let cols := columns (fst (technical_indicators (fresh_frame dec14))) in
  (exists s, lookup_col "RSI" cols = Some s /\ nth 13 s NaN = Fin (0 # 182)) /\
  ~ column_shape (lookup_col "RSI" cols) 14 14 14.
Proof.
  intros cols.
  assert (E : lookup_col "RSI" cols = Some (rsi_series dec14)) by (vm_compute; reflexivity).
  split.
  - exists (rsi_series dec14). split; [exact E | vm_compute; reflexivity].
  - rewrite E. cbn [column_shape]. intros (_ & _ & H).
    specialize (H 13%nat ltac:(lia)). vm_compute in H. discriminate H.
Qed.

(** ** C9: frame effect of the block *)

(** C9. The block only adds the derived columns: the OHLCV columns and the
    length of the frame are unchanged; its values depend on the closes
    alone (equal closes give equal values), and re-running it on the frame
    it produced gives the same values. *)
Theorem indicators_frame_effect (df1 df2 : frame) :
  Close df1 = Close df2 ->
  let df' := fst (technical_indicators df1) in
  Open df' = Open df1 /\ High df' = High df1 /\ Low df' = Low df1 /\
  Close df' = Close df1 /\ Volume df' = Volume df1 /\
  length (Close df') = length (Close df1) /\
  snd (technical_indicators df1) = snd (technical_indicators df2) /\
  snd (technical_indicators df') = snd (technical_indicators df1).
Proof.
  intros H. cbv zeta.
  pose proof (ti_fields df1) as Hf. cbv zeta in Hf.
  destruct Hf as (H1 & H2 & H3 & H4 & H5).
  repeat split; auto.
  - now rewrite H4.
  - rewrite !ti_values, H. reflexivity.
  - rewrite !ti_values, H4. reflexivity.
Qed.

Lemma indicators_frame_effect_witness :
  Close (fresh_frame dec14) = Close (set_column "RSI" [] (fresh_frame dec14)) /\
  snd (technical_indicators (fresh_frame dec14))
  = snd (technical_indicators (set_column "RSI" [] (fresh_frame dec14))).
Proof.
  split; [reflexivity|].
  destruct (indicators_frame_effect (fresh_frame dec14)
              (set_column "RSI" [] (fresh_frame dec14)) eq_refl)
    as (_ & _ & _ & _ & _ & _ & H & _).
  exact H.
Defined.

(** * Further properties of the code *)

(** ** RSI values *)

(** Every RSI entry is either undefined (NaN) or a finite value in
    [0, 100]: the unguarded division never yields an infinite RSI. *)
Theorem rsi_nan_or_bounded (cs : list Q) (i : nat) :
  (i < length cs)%nat ->
  nth i (rsi_series cs) NaN = NaN \/
  exists r, nth i (rsi_series cs) NaN = Fin r /\ 0 <= r /\ r <= 100.
Proof.
  intros Hi. rewrite rsi_at, gain_of_at, loss_of_at by exact Hi.
  destruct (Nat.ltb (S i) 14); [left; reflexivity|].
  change (rsi_formula (fdiv (Fin (mean_gain cs i)) (Fin (mean_loss cs i))))
    with (spec_rsi (mean_gain cs i) (mean_loss cs i)).
  pose proof (mean_gain_nonneg cs i) as Hg. pose proof (mean_loss_nonneg cs i) as Hl.
  destruct (Qlt_le_dec 0 (mean_loss cs i)) as [Hpos|Hle].
  - right. destruct (spec_rsi_pos_loss _ _ Hg Hpos) as (r & Hr & H0 & H100 & _).
    exists r. auto.
  - assert (Hz : mean_loss cs i == 0) by lra.
    destruct (spec_rsi_zero_loss _ _ Hg Hz) as [Hp Hn].
    destruct (Qlt_le_dec 0 (mean_gain cs i)) as [Hgp|Hgz].
    + right. exists 100. split; [apply Hp; exact Hgp|]. split; lra.
    + left. apply Hn. lra.
Qed.

Lemma rsi_nan_or_bounded_witness :
  (13 < length flat14)%nat /\
  (nth 13 (rsi_series flat14) NaN = NaN \/
   exists r, nth 13 (rsi_series flat14) NaN = Fin r /\ 0 <= r /\ r <= 100).
Proof.
  split; [vm_compute; lia|]. apply (rsi_nan_or_bounded flat14 13). vm_compute. lia.
Defined.

Lemma increasing_nth l k :
  increasing l = true -> (S k < length l)%nat -> nth k l 0 < nth (S k) l 0.
Proof.
  revert k. induction l as [|x t IH]; intros k Hd Hk; [simpl in Hk; lia|].
  destruct t as [|y t']; [simpl in Hk; lia|].
  cbn [increasing] in Hd. apply andb_true_iff in Hd as [Hxy Hd].
  destruct k as [|k].
  - apply Qlt_bool_iff in Hxy. exact Hxy.
  - apply (IH k Hd). simpl in *. lia.
Qed.

Lemma gain_terms_nonneg cs ks :
  Forall (fun y => 0 <= y)
    (map (fun k => if Nat.eqb k 0 then 0 else spec_gain (day_diff cs k)) ks).
Proof.
  apply Forall_forall. intros x Hx. apply in_map_iff in Hx.
  destruct Hx as [k [<- _]]. destruct (Nat.eqb k 0);
    [apply Qle_refl | apply spec_gain_nonneg].
Qed.

(** On strictly increasing closes (at least 14 of them) the RSI the block
    reads at the last index is exactly 100: the mean loss of the last
    window is 0 and its mean gain positive. *)
Theorem rsi_increasing_hundred (df : frame) :
  (14 <= length (Close df))%nat -> increasing (Close df) = true ->
  rsi_val (snd (technical_indicators df)) = Some (Fin 100).
Proof.
  intros Hlen Hinc. rewrite ti_values. cbn [rsi_val].
  rewrite (proj2 (Nat.leb_le _ _) Hlen). f_equal.
  set (cs := Close df) in *. set (i := (length cs - 1)%nat).
  assert (Hi : (i < length cs)%nat) by (unfold i; lia).
  assert (Hdiff : forall k, (1 <= k)%nat -> (k < length cs)%nat -> 0 < day_diff cs k).
  { intros k Hk1 Hk2. unfold day_diff.
    pose proof (increasing_nth cs (k - 1) Hinc ltac:(lia)) as H.
    replace (S (k - 1)) with k in H by lia. lra. }
  assert (Hl : mean_loss cs i == 0).
  { unfold mean_loss.
    match goal with |- qsum ?l / _ == _ => assert (Hall : Forall (fun y => y == 0) l) end.
    2:{ rewrite (qsum_zero _ Hall). vm_compute. reflexivity. }
    apply Forall_forall. intros x Hx. apply in_map_iff in Hx.
    destruct Hx as [k [<- Hk]]. apply in_seq in Hk.
    destruct (Nat.eqb k 0) eqn:E; [reflexivity|]. apply Nat.eqb_neq in E.
    unfold spec_loss. rewrite (proj2 (Qlt_bool_false _ 0)); [reflexivity|].
    pose proof (Hdiff k ltac:(lia) ltac:(unfold i in Hk; lia)). lra. }
  assert (Hg : 0 < mean_gain cs i).
  { unfold mean_gain. apply Qlt_shift_div_l; [reflexivity|].
    assert (Hin : In (spec_gain (day_diff cs i))
              (map (fun k => if Nat.eqb k 0 then 0 else spec_gain (day_diff cs k))
                   (seq (i - 13) 14))).
    { apply in_map_iff. exists i. split.
      - rewrite (proj2 (Nat.eqb_neq i 0)) by (unfold i; lia). reflexivity.
      - apply in_seq. lia. }
    assert (Hpos : 0 < spec_gain (day_diff cs i)).
    { pose proof (Hdiff i ltac:(unfold i; lia) Hi) as Hp. unfold spec_gain.
      rewrite (proj2 (Qlt_bool_iff 0 _) Hp). exact Hp. }
    pose proof (qsum_ge_in _ _ (gain_terms_nonneg cs _) Hin). lra. }
  destruct (spec_rsi_zero_loss (mean_gain cs i) (mean_loss cs i)
              (mean_gain_nonneg cs i) Hl) as [Hp _].
  unfold iloc_last. rewrite last_nth, length_rsi_series. fold i.
  rewrite rsi_at, gain_of_at, loss_of_at by exact Hi.
  rewrite (proj2 (Nat.ltb_ge _ _)) by (unfold i; lia).
  apply Hp. exact Hg.
Qed.

Lemma rsi_increasing_hundred_witness :
  ((14 <= length (Close (fresh_frame inc14)))%nat /\ increasing (Close (fresh_frame inc14)) = true) /\
  rsi_val (snd (technical_indicators (fresh_frame inc14))) = Some (Fin 100).
Proof.
  split; [split; [vm_compute; lia | vm_compute; reflexivity]|].
  apply rsi_increasing_hundred; [vm_compute; lia | vm_compute; reflexivity].
Defined.

(** On a constant close series of at least 14 bars the last RSI is NaN
    (0/0), and since NaN is truthy the display shows it as a metric with the
    "Neutral" signal rather than "Insufficient data". *)
Theorem rsi_flat_shown_nan (df : frame) :
  (14 <= length (Close df))%nat ->
  forallb (fun c => Qeq_bool c (hd 0 (Close df))) (Close df) = true ->
  rsi_val (snd (technical_indicators df)) = Some NaN /\
  nth 2 (display_indicators (snd (technical_indicators df))) (InfoBox "")
  = Metric "RSI (14)" NaN (Some "Neutral"%string).
Proof.
  intros Hlen Hflat.
  assert (Hv : rsi_val (snd (technical_indicators df)) = Some NaN).
  { rewrite ti_values. cbn [rsi_val].
    rewrite (proj2 (Nat.leb_le _ _) Hlen). f_equal.
    set (cs := Close df) in *. set (i := (length cs - 1)%nat).
    assert (Hi : (i < length cs)%nat) by (unfold i; lia).
    assert (Hc : forall k, (k < length cs)%nat -> nth k cs 0 == hd 0 cs).
    { intros k Hk. rewrite forallb_forall in Hflat.
      apply Qeq_bool_iff, Hflat, nth_In, Hk. }
    assert (Hdiff : forall k, (1 <= k)%nat -> (k < length cs)%nat -> day_diff cs k == 0).
    { intros k Hk1 Hk2. unfold day_diff.
      rewrite (Hc k Hk2), (Hc (k - 1)%nat ltac:(lia)). ring. }
    assert (Hg : mean_gain cs i == 0).
    { unfold mean_gain.
      match goal with |- qsum ?l / _ == _ => assert (Hall : Forall (fun y => y == 0) l) end.
      2:{ rewrite (qsum_zero _ Hall). vm_compute. reflexivity. }
      apply Forall_forall. intros x Hx. apply in_map_iff in Hx.
      destruct Hx as [k [<- Hk]]. apply in_seq in Hk.
      destruct (Nat.eqb k 0) eqn:E; [reflexivity|]. apply Nat.eqb_neq in E.
      unfold spec_gain. rewrite (proj2 (Qlt_bool_false 0 _)); [reflexivity|].
      pose proof (Hdiff k ltac:(lia) ltac:(unfold i in Hk; lia)). lra. }
    assert (Hl : mean_loss cs i == 0).
    { unfold mean_loss.
      match goal with |- qsum ?l / _ == _ => assert (Hall : Forall (fun y => y == 0) l) end.
      2:{ rewrite (qsum_zero _ Hall). vm_compute. reflexivity. }
      apply Forall_forall. intros x Hx. apply in_map_iff in Hx.
      destruct Hx as [k [<- Hk]]. apply in_seq in Hk.
      destruct (Nat.eqb k 0) eqn:E; [reflexivity|]. apply Nat.eqb_neq in E.
      unfold spec_loss. rewrite (proj2 (Qlt_bool_false _ 0)); [reflexivity|].
      pose proof (Hdiff k ltac:(lia) ltac:(unfold i in Hk; lia)). lra. }
    destruct (spec_rsi_zero_loss (mean_gain cs i) (mean_loss cs i)
                (mean_gain_nonneg cs i) Hl) as [_ Hn].
    unfold iloc_last. rewrite last_nth, length_rsi_series. fold i.
    rewrite rsi_at, gain_of_at, loss_of_at by exact Hi.
    rewrite (proj2 (Nat.ltb_ge _ _)) by (unfold i; lia).
    apply Hn. exact Hg. }
  split; [exact Hv|].
  cbn [display_indicators nth]. rewrite Hv. reflexivity.
Qed.

Lemma rsi_flat_shown_nan_witness :
  ((14 <= length (Close (fresh_frame flat14)))%nat /\
   forallb (fun c => Qeq_bool c (hd 0 (Close (fresh_frame flat14)))) (Close (fresh_frame flat14)) = true) /\
  nth 2 (display_indicators (snd (technical_indicators (fresh_frame flat14)))) (InfoBox "")
  = Metric "RSI (14)" NaN (Some "Neutral"%string).
Proof.
  split; [split; [vm_compute; lia | vm_compute; reflexivity]|].
  apply rsi_flat_shown_nan; [vm_compute; lia | vm_compute; reflexivity].
Defined.

(** ** Moving averages stay within the window's range *)

Lemma QW_S n : QW (S n) == QW n + 1.
Proof. unfold QW. rewrite Nat2Z.inj_succ, <- Z.add_1_r, inject_Z_plus. reflexivity. Qed.

Lemma qsum_bounds lo hi l :
  Forall (fun x => lo <= x /\ x <= hi) l ->
  lo * QW (length l) <= qsum l /\ qsum l <= hi * QW (length l).
Proof.
  induction 1 as [|x l [Hlo Hhi] _ [IH1 IH2]].
  - unfold QW. simpl. split; [rewrite Qmult_0_r | rewrite Qmult_0_r]; apply Qle_refl.
  - cbn [length qsum fold_right]. fold (qsum l). rewrite !QW_S.
    split; [setoid_replace (lo * (QW (length l) + 1)) with (lo * QW (length l) + lo) by ring
           |setoid_replace (hi * (QW (length l) + 1)) with (hi * QW (length l) + hi) by ring];
      lra.
Qed.

(** Where the moving average of window [W] is defined, it lies between any
    lower and upper bound of the closes in its window. *)
Theorem ma_within_window (W : nat) (cs : list Q) (i : nat) (lo hi : Q) :
  (1 <= W)%nat -> (W - 1 <= i)%nat -> (i < length cs)%nat ->
  (forall k, (S i - W <= k)%nat -> (k <= i)%nat -> lo <= nth k cs 0 /\ nth k cs 0 <= hi) ->
  exists m, nth i (ma_series W cs) NaN = Fin m /\ lo <= m /\ m <= hi.
Proof.
  intros HW Hi Hlen Hb. unfold ma_series, close_series.
  rewrite nth_rolling_mean_Fin by assumption.
  rewrite (proj2 (Nat.ltb_ge _ _)) by lia.
  rewrite (window_full _ _ _ 0) by lia.
  set (l := map (fun k => nth k cs 0) (seq (S i - W) W)).
  eexists. split; [reflexivity|].
  assert (Hf : Forall (fun x => lo <= x /\ x <= hi) l).
  { apply Forall_forall. intros x Hx. apply in_map_iff in Hx.
    destruct Hx as [k [<- Hk]]. apply in_seq in Hk. apply Hb; lia. }
  destruct (qsum_bounds lo hi l Hf) as [H1 H2].
  unfold l in H1, H2. rewrite length_map, length_seq in H1, H2. fold l in H1, H2.
  assert (HWpos : 0 < QW W) by (unfold QW, Qlt; simpl; lia).
  split.
  - apply Qle_shift_div_l; [exact HWpos|]. exact H1.
  - apply Qle_shift_div_r; [exact HWpos|]. exact H2.
Qed.

Lemma ma_within_window_witness :
  ((1 <= 20)%nat /\ (20 - 1 <= 19)%nat /\ (19 < length (map (fun k => inject_Z (Z.of_nat k)) (seq 1 20)))%nat) /\
  exists m, nth 19 (ma_series 20 (map (fun k => inject_Z (Z.of_nat k)) (seq 1 20))) NaN = Fin m
            /\ 1 <= m /\ m <= 20.
Proof.
  split; [vm_compute; repeat split; lia|].
  apply (ma_within_window 20 (map (fun k => inject_Z (Z.of_nat k)) (seq 1 20)) 19 1 20);
    [lia | lia | vm_compute; lia |].
  intros k H1 H2. simpl in H1.
  rewrite (nth_map_in _ _ _ _ O) by (rewrite length_seq; lia).
  rewrite seq_nth by lia. unfold Qle. simpl. lia.
Defined.

(** ** Outcome of one fetch-and-render cycle *)



(** ** The recent trading data table *)

Lemma insert_desc_end b m :
  Forall (fun h => (bar_date b < bar_date h)%Z) m -> insert_desc b m = m ++ [b].
Proof.
  induction 1 as [|h m Hh _ IH]; [reflexivity|].
  cbn [insert_desc]. rewrite (proj2 (Z.ltb_ge _ _)) by lia. now rewrite IH.
Qed.

Lemma sort_desc_rev l :
  StronglySorted (fun a b => (bar_date a < bar_date b)%Z) l -> sort_desc l = rev l.
Proof.
  induction 1 as [|a l _ IH Ha]; [reflexivity|].
  change (sort_desc (a :: l)) with (insert_desc a (sort_desc l)).
  rewrite IH. apply insert_desc_end, Forall_rev, Ha.
Qed.

Lemma StronglySorted_skipn {A} (R : A -> A -> Prop) k l :
  StronglySorted R l -> StronglySorted R (skipn k l).
Proof.
  revert k. induction l as [|a l IH]; intros [|k] H; simpl;
    [exact H | exact H | exact H | apply IH; now inversion H].
Qed.

(** For a download whose dates are strictly ascending, the table holds the
    last [min(10, n)] bars, newest first, with the prices rounded; its
    first row is the most recent bar. *)
Theorem recent_table_newest_first (rows : list bar) (d : bar) :
  Sorted (fun a b => (bar_date a < bar_date b)%Z) rows ->
  recent_table rows = map round_bar (rev (tail_rows 10 rows)) /\
  length (recent_table rows) = Nat.min 10 (length rows) /\
  (rows <> [] -> hd_error (recent_table rows) = Some (round_bar (last rows d))).
Proof.
  intros Hs.
  assert (Hss : StronglySorted (fun a b => (bar_date a < bar_date b)%Z) rows).
  { apply Sorted_StronglySorted; [|exact Hs].
    intros x y z H1 H2. lia. }
  assert (Heq : recent_table rows = map round_bar (rev (tail_rows 10 rows))).
  { unfold recent_table. rewrite sort_desc_rev; [reflexivity|].
    apply StronglySorted_skipn, Hss. }
  split; [exact Heq|]. rewrite Heq. split.
  - unfold tail_rows. rewrite length_map, length_rev, length_skipn. lia.
  - intros Hne. destruct (exists_last Hne) as (l' & a & ->).
    unfold tail_rows. rewrite skipn_app, length_app.
    cbn [length]. replace (length l' + 1 - 10 - length l')%nat with O by lia.
    cbn [skipn]. rewrite rev_app_distr. cbn [rev app map hd_error].
    now rewrite last_last.
Qed.

Definition sample_rows : list bar :=
  map (fun k => mkBar (Z.of_nat k) (inject_Z (Z.of_nat k)) (inject_Z (Z.of_nat k))
                      (inject_Z (Z.of_nat k)) (inject_Z (Z.of_nat k)) 100 [])
      (seq 1 12).

Lemma recent_table_newest_first_witness :
  Sorted (fun a b => (bar_date a < bar_date b)%Z) sample_rows /\
  length (recent_table sample_rows) = 10%nat.
Proof.
  assert (Hs : Sorted (fun a b => (bar_date a < bar_date b)%Z) sample_rows)
    by (vm_compute; repeat constructor).
  split; [exact Hs|].
  destruct (recent_table_newest_first sample_rows (mkBar 0 0 0 0 0 0 []) Hs)
    as (_ & H & _).
  rewrite H. reflexivity.
Defined.

(** ** Rounding of the displayed prices *)

Lemma rint_close x :
  inject_Z (rint x) - x <= 1 # 2 /\ x - inject_Z (rint x) <= 1 # 2.
Proof.
  pose proof (Qfloor_le x) as Hf. pose proof (Qlt_floor x) as Hc.
  rewrite inject_Z_plus in Hc. change (inject_Z 1) with 1 in Hc.
  unfold rint. set (f := Qfloor x) in *.
  destruct (Qlt_bool (x - inject_Z f) (1 # 2)) eqn:E1.
  { apply Qlt_bool_iff in E1. split; lra. }
  apply Qlt_bool_false in E1.
  destruct (Qlt_bool (1 # 2) (x - inject_Z f)) eqn:E2.
  { rewrite inject_Z_plus. change (inject_Z 1) with 1. split; lra. }
  apply Qlt_bool_false in E2.
  destruct (Z.even f); [|rewrite inject_Z_plus; change (inject_Z 1) with 1]; split; lra.
Qed.

(** [round(2)] moves a displayed price by at most half a hundredth. *)
Theorem round2_error (q : Q) : - (1 # 200) <= round2 q - q /\ round2 q - q <= 1 # 200.
Proof.
  destruct (rint_close (q * 100)) as [H1 H2].
  unfold round2. set (z := inject_Z (rint (q * 100))) in *.
  change (z / 100) with (z * (1 # 100)).
  split; lra.
Qed.

(** ** Session state across reruns *)

(** Until "Analyze Stock" is pressed, no rerun fetches anything, whatever
    the sidebar selection: the landing page is shown. *)
Theorem no_fetch_before_click (inputs : list (string * string * bool)) :
  Forall (fun e => snd e = false) inputs ->
  reruns initial_session inputs = repeat None (length inputs).
Proof.
  induction 1 as [|[[t p] c] rest Hc _ IH]; [reflexivity|].
  cbn [snd] in Hc. subst c.
  change (reruns initial_session ((t, p, false) :: rest))
    with (None :: reruns initial_session rest).
  rewrite IH. reflexivity.
Qed.

Lemma no_fetch_before_click_witness :
  Forall (fun e : string * string * bool => snd e = false)
    [("TCS.NS", "1mo", false); ("INFY.NS", "1y", false)]%string /\
  reruns initial_session [("TCS.NS", "1mo", false); ("INFY.NS", "1y", false)]%string
  = [None; None].
Proof.
  assert (H : Forall (fun e : string * string * bool => snd e = false)
    [("TCS.NS", "1mo", false); ("INFY.NS", "1y", false)]%string)
    by (repeat constructor).
  split; [exact H|]. exact (no_fetch_before_click _ H).
Defined.

(** Pressing "Analyze Stock" fetches the sidebar's ticker and period, and
    every later rerun without a new press fetches that same ticker and
    period again, even when the sidebar selection has changed since. *)
Theorem fetch_sticky_after_click (s : session) (ticker period : string)
  (inputs : list (string * string * bool)) :
  Forall (fun e => snd e = false) inputs ->
  snd (rerun s ticker period true) = Some (ticker, period) /\
  reruns (fst (rerun s ticker period true)) inputs
  = repeat (Some (ticker, period)) (length inputs).
Proof.
  intros H. split; [reflexivity|].
  change (fst (rerun s ticker period true))
    with (mkSession (Some true) (Some ticker) (Some period)).
  induction H as [|[[t p] c] rest Hc _ IH]; [reflexivity|].
  cbn [snd] in Hc. subst c.
  change (reruns (mkSession (Some true) (Some ticker) (Some period)) ((t, p, false) :: rest))
    with (Some (ticker, period)
          :: reruns (mkSession (Some true) (Some ticker) (Some period)) rest).
  rewrite IH. reflexivity.
Qed.

Lemma fetch_sticky_after_click_witness :
  Forall (fun e : string * string * bool => snd e = false)
    [("INFY.NS", "5y", false)]%string /\
  reruns (fst (rerun initial_session "TCS.NS" "1mo" true)) [("INFY.NS", "5y", false)]%string
  = [Some ("TCS.NS", "1mo")]%string.
Proof.
  assert (H : Forall (fun e : string * string * bool => snd e = false)
    [("INFY.NS", "5y", false)]%string) by (repeat constructor).
  split; [exact H|].
  exact (proj2 (fetch_sticky_after_click initial_session "TCS.NS" "1mo" _ H)).
Defined.

(** ** Moving averages on positive prices *)

Lemma ma_last_positive (W : nat) (cs : list Q) :
  (1 <= W)%nat -> (W <= length cs)%nat -> Forall (fun c => 0 < c) cs ->
  exists m, iloc_last (ma_series W cs) = Fin m /\ 0 < m.
Proof.
  intros HW Hlen Hpos. set (i := (length cs - 1)%nat).
  assert (Hi : (i < length cs)%nat) by (unfold i; lia).
  unfold iloc_last. rewrite last_nth. unfold ma_series, close_series.
  rewrite length_rolling_mean, length_map. fold i.
  rewrite nth_rolling_mean_Fin by assumption.
  rewrite (proj2 (Nat.ltb_ge _ _)) by (unfold i; lia).
  rewrite (window_full _ _ _ 0) by (unfold i; lia).
  eexists. split; [reflexivity|].
  assert (HWpos : 0 < QW W) by (unfold QW, Qlt; simpl; lia).
  apply Qlt_shift_div_l; [exact HWpos|].
  rewrite Forall_forall in Hpos.
  assert (Hin : In (nth i cs 0) (map (fun k => nth k cs 0) (seq (S i - W) W))).
  { apply in_map_iff. exists i. split; [reflexivity|]. apply in_seq. lia. }
  assert (Hnn : Forall (fun y => 0 <= y) (map (fun k => nth k cs 0) (seq (S i - W) W))).
  { apply Forall_forall. intros x Hx. apply in_map_iff in Hx.
    destruct Hx as [k [<- Hk]]. apply in_seq in Hk.
    apply Qlt_le_weak, Hpos, nth_In. unfold i in Hk. lia. }
  pose proof (qsum_ge_in _ _ Hnn Hin).
  pose proof (Hpos (nth i cs 0) (nth_In _ _ Hi)). lra.
Qed.

(** With positive closes, as a real download has, each moving average is
    shown as a metric exactly when the series has at least its window of
    bars, and as "Insufficient data" otherwise. *)
Theorem ma_shown_for_positive_prices (df : frame) :
  Forall (fun c => 0 < c) (Close df) ->
  let shown := display_indicators (snd (technical_indicators df)) in
  ((20 <= length (Close df))%nat ->
     exists m, 0 < m /\ nth 0 shown (InfoBox "") = Metric "MA 20" (Fin m) None) /\
  ((length (Close df) < 20)%nat -> nth 0 shown (InfoBox "") = InfoBox "MA 20: Insufficient data") /\
  ((50 <= length (Close df))%nat ->
     exists m, 0 < m /\ nth 1 shown (InfoBox "") = Metric "MA 50" (Fin m) None) /\
  ((length (Close df) < 50)%nat -> nth 1 shown (InfoBox "") = InfoBox "MA 50: Insufficient data").
Proof.
  intros Hpos. cbv zeta. rewrite ti_values. cbn [display_indicators nth ma20_value ma50_value].
  repeat split; intros Hn.
  - rewrite (proj2 (Nat.leb_le _ _) Hn).
    destruct (ma_last_positive 20 (Close df) ltac:(lia) Hn Hpos) as (m & -> & Hm).
    exists m. split; [exact Hm|]. cbn [show_value truthy].
    destruct (Qeq_bool m 0) eqn:E; [apply Qeq_bool_iff in E; lra | reflexivity].
  - rewrite (proj2 (Nat.leb_gt _ _) Hn). reflexivity.
  - rewrite (proj2 (Nat.leb_le _ _) Hn).
    destruct (ma_last_positive 50 (Close df) ltac:(lia) Hn Hpos) as (m & -> & Hm).
    exists m. split; [exact Hm|]. cbn [show_value truthy].
    destruct (Qeq_bool m 0) eqn:E; [apply Qeq_bool_iff in E; lra | reflexivity].
  - rewrite (proj2 (Nat.leb_gt _ _) Hn). reflexivity.
Qed.

Lemma ma_shown_for_positive_prices_witness :
  Forall (fun c => 0 < c) (Close (fresh_frame (map (fun k => inject_Z (Z.of_nat k)) (seq 1 30)))) /\
  exists m, 0 < m /\
    nth 0 (display_indicators (snd (technical_indicators
      (fresh_frame (map (fun k => inject_Z (Z.of_nat k)) (seq 1 30)))))) (InfoBox "")
    = Metric "MA 20" (Fin m) None.
Proof.
  assert (H : Forall (fun c => 0 < c) (Close (fresh_frame (map (fun k => inject_Z (Z.of_nat k)) (seq 1 30)))))
    by (vm_compute; repeat constructor).
  split; [exact H|].
  destruct (ma_shown_for_positive_prices _ H) as (H20 & _).
  apply H20. vm_compute. lia.
Defined.
